(** * Wasmtime JNI bridge (native/wasmtime-android/src/wasmtime_jni.c)

    A shallow embedding of the six JNI entry points of the bridge, and the
    properties of the bridge's specification checked against them.

    The C functions only talk to two collaborators: the Android log
    (through the [LOGI] macro) and the [JNIEnv] function table
    ([GetStringUTFChars], [ReleaseStringUTFChars], [NewStringUTF]).  Both are
    modelled by an explicit [World] threaded through a small state monad.
    The bridge itself has no global or static variable.

    Assumptions of the model: the string arguments are not null, and
    the virtual machine does not run out of memory, so that
    [GetStringUTFChars] and [NewStringUTF] return what they are asked
    for.  The receiver [thiz] is passed along although no function
    looks at it. *)

From Stdlib Require Import ZArith List String Ascii Bool Lia.
From Stdlib.Strings Require Import Byte.
Import ListNotations.

Local Open Scope Z_scope.
Local Open Scope string_scope.

(* ================================================================== *)
(** ** JNI value types *)

(** [jlong] is a signed 64-bit integer; the bridge only ever produces the
    literal [0], so no wrap-around arithmetic is needed. *)
Definition jlong := Z.

(** A Java string is immutable: it is modelled by its contents (the bytes
    of its modified UTF-8 form, which never contain NUL). *)
Definition jstring := string.

Definition jbyteArray := list byte.

(** An opaque Java object reference ([thiz], a [java.io.File]). *)
Definition jobject := Z.

(* ================================================================== *)
(** ** The world outside the bridge *)

Inductive android_LogPriority : Type :=
| ANDROID_LOG_INFO
| ANDROID_LOG_ERROR.

Record LogRecord : Type := mkLog {
  log_prio : android_LogPriority;
  log_tag  : string;
  log_msg  : string
}.

(** [logcat]: the records written so far, oldest first.
    [utf_chars]: the C buffers handed out by [GetStringUTFChars] that have
    not been released yet.
    [pending_exception]: the class of the Java exception pending in this
    thread, if any; a native method fails towards Java by leaving one. *)
Record World : Type := mkWorld {
  logcat            : list LogRecord;
  utf_chars         : list string;
  pending_exception : option string
}.

Definition empty_world : World := mkWorld [] [] None.

(** State monad over the world. *)
Definition JNI (A : Type) : Type := World -> A * World.

Definition ret {A} (a : A) : JNI A := fun w => (a, w).

Definition bind {A B} (m : JNI A) (k : A -> JNI B) : JNI B :=
  fun w => let (a, w') := m w in k a w'.

Declare Scope jni_scope.
Delimit Scope jni_scope with jni.
Notation "x <- m ;; k" := (bind m (fun x => k))
  (at level 61, m at next level, right associativity) : jni_scope.
Notation "m ;;; k" := (bind m (fun _ => k))
  (at level 61, right associativity) : jni_scope.

Definition result {A} (m : JNI A) (w : World) : A := fst (m w).
Definition after  {A} (m : JNI A) (w : World) : World := snd (m w).

(* ------------------------------------------------------------------ *)
(** *** C string literals

    The C literals of the bridge that contain double quotes are written
    here with apostrophes in their place; [c_str] puts the quotes back. *)

Definition dquote : ascii := ascii_of_nat 34.

Fixpoint c_str (s : string) : string :=
  match s with
  | EmptyString => EmptyString
  | String c s' =>
      String (if Ascii.eqb c "'" then dquote else c) (c_str s')
  end.

(* ------------------------------------------------------------------ *)
(** *** printf-style formatting, as far as the bridge uses it *)

(** Expands [%s] with the next argument and [%%] to a percent sign.  A
    missing argument prints nothing. *)
Fixpoint format (fmt : string) (args : list string) : string :=
  match fmt with
  | EmptyString => EmptyString
  | String "%" (String "s" rest) =>
      match args with
      | a :: args' => a ++ format rest args'
      | [] => format rest []
      end
  | String "%" (String "%" rest) => String "%" (format rest args)
  | String c rest => String c (format rest args)
  end.

(** The first [n] characters of a string. *)
Fixpoint truncate (n : nat) (s : string) : string :=
  match n, s with
  | S n', String c s' => String c (truncate n' s')
  | _, _ => EmptyString
  end.

(** liblog formats into a buffer of [LOG_BUF_SIZE] bytes with [vsnprintf]. *)
Definition LOG_BUF_SIZE : nat := 1024.

Definition __android_log_print
    (prio : android_LogPriority) (tag fmt : string) (args : list string)
  : JNI unit :=
  fun w =>
    let line := truncate (LOG_BUF_SIZE - 1) (format fmt args) in
    (tt, mkWorld (logcat w ++ [mkLog prio tag line])
                 (utf_chars w) (pending_exception w)).

(* ------------------------------------------------------------------ *)
(** *** The JNIEnv functions the bridge calls *)

(** Removes the first occurrence of [s]. *)
Fixpoint remove_first (s : string) (l : list string) : list string :=
  match l with
  | [] => []
  | x :: l' => if String.eqb x s then l' else x :: remove_first s l'
  end.

(** [GetStringUTFChars(env, s, NULL)]: a fresh C buffer holding
    the contents of [s]; it stays allocated until released. *)
Definition GetStringUTFChars (s : jstring) : JNI string :=
  fun w => (s, mkWorld (logcat w) (s :: utf_chars w) (pending_exception w)).

(** [ReleaseStringUTFChars(env, s, chars)]. *)
Definition ReleaseStringUTFChars (s : jstring) (chars : string) : JNI unit :=
  fun w => (tt, mkWorld (logcat w) (remove_first chars (utf_chars w))
                        (pending_exception w)).

(** [NewStringUTF(env, bytes)]: a new [java.lang.String]. *)
Definition NewStringUTF (bytes : string) : JNI jstring :=
  fun w => (bytes, w).

(* ================================================================== *)
(** ** The bridge *)

Definition LOG_TAG : string := "WasmtimeJNI".

Definition LOGI (fmt : string) (args : list string) : JNI unit :=
  __android_log_print ANDROID_LOG_INFO LOG_TAG fmt args.

Definition LOGE (fmt : string) (args : list string) : JNI unit :=
  __android_log_print ANDROID_LOG_ERROR LOG_TAG fmt args.

Local Open Scope jni_scope.

(** Load a WASM module from bytes.  Returns a module handle. *)
Definition Java_com_builder_runtime_wasm_WasmRuntime_loadModuleFromBytes
    (thiz : jobject) (wasm_bytes : jbyteArray) : JNI jlong :=
  LOGI "loadModuleFromBytes called (stub implementation)" [] ;;;
  ret 0.

(** Instantiate a WASM module with WASI configuration.  Returns an
    instance handle. *)
Definition Java_com_builder_runtime_wasm_WasmRuntime_instantiate
    (thiz : jobject) (module_handle : jlong) (wasi_config_json : jstring)
  : JNI jlong :=
  LOGI "instantiate called (stub implementation)" [] ;;;
  config <- GetStringUTFChars wasi_config_json ;;
  LOGI "WASI config: %s" [config] ;;;
  ReleaseStringUTFChars wasi_config_json config ;;;
  ret 0.

(** Call a WASM function.  Returns the JSON serialized result. *)
Definition Java_com_builder_runtime_wasm_WasmRuntime_call
    (thiz : jobject) (instance_handle : jlong)
    (function_name : jstring) (args_json : jstring) : JNI jstring :=
  LOGI "call called (stub implementation)" [] ;;;
  func_name <- GetStringUTFChars function_name ;;
  args <- GetStringUTFChars args_json ;;
  LOGI "Calling function: %s with args: %s" [func_name; args] ;;;
  ReleaseStringUTFChars function_name func_name ;;;
  ReleaseStringUTFChars args_json args ;;;
  NewStringUTF (c_str "{'result':'stub'}").

(** Destroy a WASM instance. *)
Definition Java_com_builder_runtime_wasm_WasmRuntime_destroyInstance
    (thiz : jobject) (instance_handle : jlong) : JNI unit :=
  LOGI "destroyInstance called (stub implementation)" [].

(** Destroy a WASM module. *)
Definition Java_com_builder_runtime_wasm_WasmRuntime_destroyModule
    (thiz : jobject) (module_handle : jlong) : JNI unit :=
  LOGI "destroyModule called (stub implementation)" [].

(** Load a WASM module from file. *)
Definition Java_com_builder_runtime_wasm_WasmRuntime_loadModule
    (thiz : jobject) (wasm_file : jobject) : JNI jlong :=
  LOGI "loadModule called (stub implementation)" [] ;;;
  ret 0.

(* ================================================================== *)
(** ** Sessions: sequences of boundary operations

    What the host application can do with the bridge is a sequence of
    calls of the six native methods; what it can observe of each is the
    value it returns. *)

Inductive Op : Type :=
| OpLoadModuleFromBytes (wasm_bytes : jbyteArray)
| OpLoadModule (wasm_file : jobject)
| OpInstantiate (module_handle : jlong) (wasi_config_json : jstring)
| OpCall (instance_handle : jlong) (function_name args_json : jstring)
| OpDestroyInstance (instance_handle : jlong)
| OpDestroyModule (module_handle : jlong).

Inductive Ret : Type :=
| RetHandle (h : jlong)
| RetString (s : jstring)
| RetVoid.

Definition run_op (thiz : jobject) (op : Op) : JNI Ret :=
  match op with
  | OpLoadModuleFromBytes b =>
      h <- Java_com_builder_runtime_wasm_WasmRuntime_loadModuleFromBytes thiz b ;;
      ret (RetHandle h)
  | OpLoadModule f =>
      h <- Java_com_builder_runtime_wasm_WasmRuntime_loadModule thiz f ;;
      ret (RetHandle h)
  | OpInstantiate m c =>
      h <- Java_com_builder_runtime_wasm_WasmRuntime_instantiate thiz m c ;;
      ret (RetHandle h)
  | OpCall i f a =>
      s <- Java_com_builder_runtime_wasm_WasmRuntime_call thiz i f a ;;
      ret (RetString s)
  | OpDestroyInstance i =>
      Java_com_builder_runtime_wasm_WasmRuntime_destroyInstance thiz i ;;;
      ret RetVoid
  | OpDestroyModule m =>
      Java_com_builder_runtime_wasm_WasmRuntime_destroyModule thiz m ;;;
      ret RetVoid
  end.

Fixpoint run_ops (thiz : jobject) (ops : list Op) : JNI (list Ret) :=
  match ops with
  | [] => ret []
  | op :: ops' =>
      r <- run_op thiz op ;;
      rs <- run_ops thiz ops' ;;
      ret (r :: rs)
  end.

Local Close Scope jni_scope.

(* ================================================================== *)
(** ** JSON documents

    The bridge exchanges JSON text with the host.  To speak about the
    shape of a returned document, the text is read back by a JSON reader
    (RFC 8259 grammar; numbers are kept as their lexeme). *)

#[local] Set Warnings "-register-all".

Inductive json : Type :=
| JNull
| JBool (b : bool)
| JNumber (lexeme : string)
| JString (s : string)
| JArray (items : list json)
| JObject (members : list (string * json)).

Module Json.

Definition is_ws (c : ascii) : bool :=
  let n := nat_of_ascii c in
  ((n =? 32) || (n =? 9) || (n =? 10) || (n =? 13))%nat.

Fixpoint skip_ws (s : string) : string :=
  match s with
  | String c s' => if is_ws c then skip_ws s' else s
  | EmptyString => s
  end.

Definition is_digit (c : ascii) : bool :=
  let n := nat_of_ascii c in ((48 <=? n) && (n <=? 57))%nat.

(** Longest prefix of digits, and what follows it. *)
Fixpoint span_digits (s : string) : string * string :=
  match s with
  | String c s' =>
      if is_digit c
      then let (d, r) := span_digits s' in (String c d, r)
      else (EmptyString, s)
  | EmptyString => (EmptyString, EmptyString)
  end.

Fixpoint strip_prefix (p s : string) : option string :=
  match p, s with
  | EmptyString, _ => Some s
  | String a p', String b s' =>
      if Ascii.eqb a b then strip_prefix p' s' else None
  | String _ _, EmptyString => None
  end.

(** [int = zero / ( digit1-9 *DIGIT )] *)
Definition int_part_ok (d : string) : bool :=
  match d with
  | EmptyString => false
  | String c EmptyString => true
  | String c _ => negb (Ascii.eqb c "0")
  end.

(** [number = [ minus ] int [ frac ] [ exp ]]; returns the lexeme. *)
Definition lex_number (s : string) : option (string * string) :=
  let (sign, s1) :=
    match s with
    | String "-" r => ("-", r)
    | _ => ("", s)
    end in
  let (ip, s2) := span_digits s1 in
  if negb (int_part_ok ip) then None else
  let frac :=
    match s2 with
    | String "." r =>
        let (d, r') := span_digits r in
        match d with
        | EmptyString => None
        | _ => Some (String "." d, r')
        end
    | _ => Some ("", s2)
    end in
  match frac with
  | None => None
  | Some (fp, s3) =>
      match s3 with
      | String e r =>
          if Ascii.eqb e "e" || Ascii.eqb e "E" then
            let (sg, r1) :=
              match r with
              | String "+" r' => ("+", r')
              | String "-" r' => ("-", r')
              | _ => ("", r)
              end in
            let (d, r2) := span_digits r1 in
            match d with
            | EmptyString => None
            | _ => Some (sign ++ ip ++ fp ++ String e sg ++ d, r2)
            end
          else Some (sign ++ ip ++ fp, s3)
      | EmptyString => Some (sign ++ ip ++ fp, s3)
      end
  end.

Definition hex_val (c : ascii) : option N :=
  let n := N_of_ascii c in
  if ((48 <=? n) && (n <=? 57))%N then Some (n - 48)%N
  else if ((65 <=? n) && (n <=? 70))%N then Some (n - 55)%N
  else if ((97 <=? n) && (n <=? 102))%N then Some (n - 87)%N
  else None.

Definition hex4 (a b c d : ascii) : option N :=
  match hex_val a, hex_val b, hex_val c, hex_val d with
  | Some x, Some y, Some z, Some t => Some (((x * 16 + y) * 16 + z) * 16 + t)%N
  | _, _, _, _ => None
  end.

(** UTF-8 of a code point of the basic plane; surrogates are refused. *)
Definition utf8 (cp : N) : option string :=
  if (cp <? 128)%N then Some (String (ascii_of_N cp) "")
  else if (cp <? 2048)%N then
    Some (String (ascii_of_N (192 + cp / 64))
         (String (ascii_of_N (128 + cp mod 64)) ""))
  else if ((55296 <=? cp) && (cp <=? 57343))%N then None
  else
    Some (String (ascii_of_N (224 + cp / 4096))
         (String (ascii_of_N (128 + (cp / 64) mod 64))
         (String (ascii_of_N (128 + cp mod 64)) ""))).

Definition simple_escape (e : ascii) : option ascii :=
  if Ascii.eqb e dquote then Some dquote
  else if Ascii.eqb e "\" then Some "\"%char
  else if Ascii.eqb e "/" then Some "/"%char
  else if Ascii.eqb e "b" then Some (ascii_of_nat 8)
  else if Ascii.eqb e "f" then Some (ascii_of_nat 12)
  else if Ascii.eqb e "n" then Some (ascii_of_nat 10)
  else if Ascii.eqb e "r" then Some (ascii_of_nat 13)
  else if Ascii.eqb e "t" then Some (ascii_of_nat 9)
  else None.

(** The rest of a string after its opening quote: the decoded contents
    and what follows the closing quote. *)
Fixpoint lex_string (s : string) : option (string * string) :=
  match s with
  | EmptyString => None
  | String c r =>
      if Ascii.eqb c dquote then Some (EmptyString, r)
      else if Ascii.eqb c "\" then
        match r with
        | String e r' =>
            if Ascii.eqb e "u" then
              match r' with
              | String h1 (String h2 (String h3 (String h4 r''))) =>
                  match hex4 h1 h2 h3 h4 with
                  | Some cp =>
                      match utf8 cp, lex_string r'' with
                      | Some enc, Some (t, rest) => Some (enc ++ t, rest)
                      | _, _ => None
                      end
                  | None => None
                  end
              | _ => None
              end
            else
              match simple_escape e, lex_string r' with
              | Some ch, Some (t, rest) => Some (String ch t, rest)
              | _, _ => None
              end
        | EmptyString => None
        end
      else if (nat_of_ascii c <? 32)%nat then None
      else
        match lex_string r with
        | Some (t, rest) => Some (String c t, rest)
        | None => None
        end
  end.

Fixpoint parse_value (fuel : nat) (s : string) {struct fuel}
  : option (json * string) :=
  match fuel with
  | O => None
  | S fuel' =>
      match skip_ws s with
      | EmptyString => None
      | String c r =>
          if Ascii.eqb c dquote then
            match lex_string r with
            | Some (t, rest) => Some (JString t, rest)
            | None => None
            end
          else if Ascii.eqb c "[" then
            match skip_ws r with
            | String "]" rest => Some (JArray [], rest)
            | _ => parse_items fuel' r []
            end
          else if Ascii.eqb c "{" then
            match skip_ws r with
            | String "}" rest => Some (JObject [], rest)
            | _ => parse_members fuel' r []
            end
          else
            match strip_prefix "null" (String c r),
                  strip_prefix "true" (String c r),
                  strip_prefix "false" (String c r) with
            | Some rest, _, _ => Some (JNull, rest)
            | _, Some rest, _ => Some (JBool true, rest)
            | _, _, Some rest => Some (JBool false, rest)
            | None, None, None =>
                match lex_number (String c r) with
                | Some (lx, rest) => Some (JNumber lx, rest)
                | None => None
                end
            end
      end
  end

with parse_items (fuel : nat) (s : string) (acc : list json) {struct fuel}
  : option (json * string) :=
  match fuel with
  | O => None
  | S fuel' =>
      match parse_value fuel' s with
      | Some (v, r) =>
          match skip_ws r with
          | String "," r' => parse_items fuel' r' (v :: acc)
          | String "]" r' => Some (JArray (rev (v :: acc)), r')
          | _ => None
          end
      | None => None
      end
  end

with parse_members (fuel : nat) (s : string) (acc : list (string * json))
    {struct fuel} : option (json * string) :=
  match fuel with
  | O => None
  | S fuel' =>
      match skip_ws s with
      | String c r =>
          if Ascii.eqb c dquote then
            match lex_string r with
            | Some (k, r1) =>
                match skip_ws r1 with
                | String ":" r2 =>
                    match parse_value fuel' r2 with
                    | Some (v, r3) =>
                        match skip_ws r3 with
                        | String "," r4 =>
                            parse_members fuel' r4 ((k, v) :: acc)
                        | String "}" r4 =>
                            Some (JObject (rev ((k, v) :: acc)), r4)
                        | _ => None
                        end
                    | None => None
                    end
                | _ => None
                end
            | None => None
            end
          else None
      | EmptyString => None
      end
  end.

(** A whole document: one value, then only white space. *)
Definition parse (doc : string) : option json :=
  match parse_value (2 * String.length doc + 2) doc with
  | Some (j, rest) =>
      match skip_ws rest with
      | EmptyString => Some j
      | _ => None
      end
  | None => None
  end.

(** First member of an object with the given name. *)
Fixpoint assoc (k : string) (ms : list (string * json)) : option json :=
  match ms with
  | [] => None
  | (k', v) :: ms' => if String.eqb k k' then Some v else assoc k ms'
  end.

Definition member (k : string) (j : json) : option json :=
  match j with
  | JObject ms => assoc k ms
  | _ => None
  end.

End Json.

(* ================================================================== *)
(** ** WebAssembly modules, as far as their export signatures

    The engine is an external collaborator of the bridge.  What the
    specification says about a module (which functions it exports, with
    what arity) is read off the module's bytes by this reader of the
    binary format: header, then the type, function and export sections.
    Modules that import anything are outside its scope. *)

Module Wasm.

Inductive valtype : Type := I32 | I64 | F32 | F64.

Record functype : Type := mkFunctype {
  params  : list valtype;
  results : list valtype
}.

Record export : Type := mkExport {
  exp_name  : string;
  exp_kind  : N;      (* 0 = function *)
  exp_index : N
}.

Record module_info : Type := mkModule {
  types   : list functype;
  funcs   : list N;       (* type index of each defined function *)
  exports : list export
}.

Definition reader (A : Type) : Type := list byte -> option (A * list byte).

(** Unsigned LEB128, at most [n] bytes. *)
Fixpoint leb_u (n : nat) (bs : list byte) : option (N * list byte) :=
  match n, bs with
  | S n', b :: bs' =>
      let v := Byte.to_N b in
      if (v <? 128)%N then Some (v, bs')
      else
        match leb_u n' bs' with
        | Some (hi, r) => Some (v - 128 + 128 * hi, r)%N
        | None => None
        end
  | _, _ => None
  end.

Definition read_u32 : reader N := leb_u 5.

Fixpoint read_n {A} (p : reader A) (n : nat) (bs : list byte)
  : option (list A * list byte) :=
  match n with
  | O => Some ([], bs)
  | S n' =>
      match p bs with
      | Some (a, r) =>
          match read_n p n' r with
          | Some (l, r') => Some (a :: l, r')
          | None => None
          end
      | None => None
      end
  end.

Definition read_vec {A} (p : reader A) : reader (list A) :=
  fun bs =>
    match read_u32 bs with
    | Some (n, r) => read_n p (N.to_nat n) r
    | None => None
    end.

Definition read_byte : reader byte :=
  fun bs => match bs with b :: r => Some (b, r) | [] => None end.

Definition read_valtype : reader valtype :=
  fun bs =>
    match bs with
    | b :: r =>
        match Byte.to_N b with
        | 127%N => Some (I32, r)
        | 126%N => Some (I64, r)
        | 125%N => Some (F32, r)
        | 124%N => Some (F64, r)
        | _ => None
        end
    | [] => None
    end.

Definition read_functype : reader functype :=
  fun bs =>
    match bs with
    | b :: r =>
        if (Byte.to_N b =? 96)%N then
          match read_vec read_valtype r with
          | Some (ps, r1) =>
              match read_vec read_valtype r1 with
              | Some (rs, r2) => Some (mkFunctype ps rs, r2)
              | None => None
              end
          | None => None
          end
        else None
    | [] => None
    end.

Definition read_name : reader string :=
  fun bs =>
    match read_vec read_byte bs with
    | Some (l, r) => Some (string_of_list_byte l, r)
    | None => None
    end.

Definition read_export : reader export :=
  fun bs =>
    match read_name bs with
    | Some (nm, r) =>
        match r with
        | k :: r1 =>
            match read_u32 r1 with
            | Some (i, r2) => Some (mkExport nm (Byte.to_N k) i, r2)
            | None => None
            end
        | [] => None
        end
    | None => None
    end.

(** The sections of a module: identifier and payload of each. *)
Fixpoint read_sections (fuel : nat) (bs : list byte)
  : option (list (N * list byte)) :=
  match bs with
  | [] => Some []
  | id :: r =>
      match fuel with
      | O => None
      | S fuel' =>
          match read_u32 r with
          | Some (size, r1) =>
              let n := N.to_nat size in
              if (n <=? List.length r1)%nat then
                match read_sections fuel' (skipn n r1) with
                | Some l => Some ((Byte.to_N id, firstn n r1) :: l)
                | None => None
                end
              else None
          | None => None
          end
      end
  end.

Fixpoint section (id : N) (l : list (N * list byte)) : option (list byte) :=
  match l with
  | [] => None
  | (i, p) :: l' => if (i =? id)%N then Some p else section id l'
  end.

(** The payload of section [id] read completely by [p]; an absent
    section reads as the empty vector. *)
Definition read_section {A} (id : N) (p : reader A)
    (l : list (N * list byte)) : option (list A) :=
  match section id l with
  | None => Some []
  | Some payload =>
      match read_vec p payload with
      | Some (v, []) => Some v
      | _ => None
      end
  end.

(** [\0asm] and version 1. *)
Definition header : list byte :=
  [x00; x61; x73; x6d; x01; x00; x00; x00].

Fixpoint strip_header (h bs : list byte) : option (list byte) :=
  match h, bs with
  | [], _ => Some bs
  | a :: h', b :: bs' => if Byte.eqb a b then strip_header h' bs' else None
  | _ :: _, [] => None
  end.

Definition decode (bs : list byte) : option module_info :=
  match strip_header header bs with
  | None => None
  | Some body =>
      match read_sections (List.length body) body with
      | None => None
      | Some secs =>
          match section 2 secs with
          | Some _ => None
          | None =>
              match read_section 1 read_functype secs,
                    read_section 3 read_u32 secs,
                    read_section 7 read_export secs with
              | Some ts, Some fs, Some es => Some (mkModule ts fs es)
              | _, _, _ => None
              end
          end
      end
  end.

Definition find_export (name : string) (m : module_info) : option export :=
  find (fun e => String.eqb (exp_name e) name && (exp_kind e =? 0)%N)
       (exports m).

(** Signature of the exported function [name]. *)
Definition export_signature (m : module_info) (name : string)
  : option functype :=
  match find_export name m with
  | Some e =>
      match nth_error (funcs m) (N.to_nat (exp_index e)) with
      | Some ti => nth_error (types m) (N.to_nat ti)
      | None => None
      end
  | None => None
  end.

Definition export_arity (bs : list byte) (name : string) : option nat :=
  match decode bs with
  | Some m => option_map (fun t => List.length (params t))
                         (export_signature m name)
  | None => None
  end.

(** Bytes written as hexadecimal digits (other characters are skipped). *)
Fixpoint hex_digits (s : string) : list N :=
  match s with
  | EmptyString => []
  | String c s' =>
      match Json.hex_val c with
      | Some v => v :: hex_digits s'
      | None => hex_digits s'
      end
  end.

Fixpoint pair_up (l : list N) : list byte :=
  match l with
  | hi :: lo :: l' =>
      match Byte.of_N (16 * hi + lo) with
      | Some b => b :: pair_up l'
      | None => pair_up l'
      end
  | _ => []
  end.

Definition bytes_of_hex (s : string) : list byte := pair_up (hex_digits s).

End Wasm.

(** [(module (func (export "add") (param i32 i32) (result i32)
              local.get 0 local.get 1 i32.add))] *)
Definition add_wasm : jbyteArray :=
  Eval vm_compute in
    Wasm.bytes_of_hex
      "00 61 73 6d 01 00 00 00
       01 07 01 60 02 7f 7f 01 7f
       03 02 01 00
       07 07 01 03 61 64 64 00 00
       0a 09 01 07 00 20 00 20 01 6a 0b".

(* ================================================================== *)
(** ** What the host observes of a native call *)

(** The document the bridge returns from [call]. *)
Definition stub_document : string := c_str "{'result':'stub'}".

Fixpoint is_prefix (p s : string) : bool :=
  match p, s with
  | EmptyString, _ => true
  | String a p', String b s' => Ascii.eqb a b && is_prefix p' s'
  | String _ _, EmptyString => false
  end.

(** [needle] occurs in [hay]. *)
Fixpoint contains (needle hay : string) : bool :=
  is_prefix needle hay ||
  match hay with
  | EmptyString => false
  | String _ hay' => contains needle hay'
  end.

(** The log records written between [w] and [w']. *)
Definition new_records (w w' : World) : list LogRecord :=
  skipn (List.length (logcat w)) (logcat w').

Definition is_error_record (r : LogRecord) : bool :=
  match log_prio r with
  | ANDROID_LOG_ERROR => true
  | ANDROID_LOG_INFO => false
  end.

(** The exception a native call leaves pending, if it was entered with
    none. *)
Definition thrown (w w' : World) : option string :=
  match pending_exception w with
  | None => pending_exception w'
  | Some _ => None
  end.

(** A native method that returns a handle or nothing has two ways to
    tell its caller which error occurred: a pending Java exception, or
    an error record in the log.  [reports kind w w'] holds when the call
    that led from [w] to [w'] used one of them and named [kind]. *)
Definition reports (kind : string) (w w' : World) : bool :=
  match thrown w w' with
  | Some e => contains kind e
  | None => false
  end
  || existsb (fun r => is_error_record r && contains kind (log_msg r))
             (new_records w w').

(** The call that led from [w] to [w'] reported no error at all. *)
Definition silent (w w' : World) : bool :=
  match thrown w w' with
  | Some _ => false
  | None => negb (existsb is_error_record (new_records w w'))
  end.

(** *** Result documents of [call] (specification, section 6) *)

(** The values of a document of the shape [{ok: true, values: [...]}]. *)
Definition success_values (doc : string) : option (list json) :=
  match Json.parse doc with
  | Some j =>
      match Json.member "ok" j, Json.member "values" j with
      | Some (JBool true), Some (JArray vs) => Some vs
      | _, _ => None
      end
  | None => None
  end.

(** Kind and message of a document of the shape
    [{ok: false, kind: string, message: string}]. *)
Definition failure_of (doc : string) : option (string * string) :=
  match Json.parse doc with
  | Some j =>
      match Json.member "ok" j, Json.member "kind" j,
            Json.member "message" j with
      | Some (JBool false), Some (JString k), Some (JString m) => Some (k, m)
      | _, _, _ => None
      end
  | None => None
  end.

Definition is_success (doc : string) : bool :=
  match success_values doc with Some _ => true | None => false end.

Definition is_failure (doc : string) : bool :=
  match failure_of doc with Some _ => true | None => false end.

(** The document is a failure that names [kind], as its kind or in its
    message. *)
Definition fails_with (kind : string) (doc : string) : bool :=
  match failure_of doc with
  | Some (k, m) => contains kind k || contains kind m
  | None => false
  end.

(** Number of elements of an arguments document (a top-level array). *)
Definition args_length (args_json : string) : option nat :=
  match Json.parse args_json with
  | Some (JArray l) => Some (List.length l)
  | _ => None
  end.

(** *** WASI configuration documents (specification, section 6)

    All keys are optional; unknown keys are rejected. *)

Definition all_strings (l : list json) : bool :=
  forallb (fun j => match j with JString _ => true | _ => false end) l.

Definition preopen_ok (j : json) : bool :=
  match Json.member "guestPath" j, Json.member "hostPath" j with
  | Some (JString _), Some (JString _) => true
  | _, _ => false
  end.

Definition config_member_ok (kv : string * json) : bool :=
  let (k, v) := kv in
  if String.eqb k "args" then
    match v with JArray l => all_strings l | _ => false end
  else if String.eqb k "env" then
    match v with JObject ms => all_strings (map snd ms) | _ => false end
  else if String.eqb k "preopens" then
    match v with JArray l => forallb preopen_ok l | _ => false end
  else if String.eqb k "inheritStdio" then
    match v with JBool _ => true | _ => false end
  else false.

Definition wasi_config_ok (wasi_config_json : string) : bool :=
  match Json.parse wasi_config_json with
  | Some (JObject ms) => forallb config_member_ok ms
  | _ => false
  end.

(** The default configuration: no key set. *)
Definition default_config : jstring := "{}".

(* ================================================================== *)
(** ** Sessions of the specification's scenarios *)

Local Open Scope jni_scope.

(** Load a module, then instantiate the handle that came back. *)
Definition load_instantiate
    (thiz : jobject) (wasm_bytes : jbyteArray) (config : jstring)
  : JNI (jlong * jlong) :=
  m <- Java_com_builder_runtime_wasm_WasmRuntime_loadModuleFromBytes
         thiz wasm_bytes ;;
  i <- Java_com_builder_runtime_wasm_WasmRuntime_instantiate thiz m config ;;
  ret (m, i).

(** Load, instantiate, and call an export of the instance once. *)
Definition call_session
    (thiz : jobject) (wasm_bytes : jbyteArray) (config : jstring)
    (function_name args_json : jstring) : JNI jstring :=
  mi <- load_instantiate thiz wasm_bytes config ;;
  Java_com_builder_runtime_wasm_WasmRuntime_call
    thiz (snd mi) function_name args_json.

(** Load, instantiate, then destroy the module while the instance has
    not been destroyed; then destroy the instance and the module again.
    Returns the worlds before and after each [destroyModule]. *)
Definition destroy_session
    (thiz : jobject) (wasm_bytes : jbyteArray) (config : jstring)
    (w : World) : (World * World) * (World * World) :=
  let (mi, w2) := load_instantiate thiz wasm_bytes config w in
  let w3 :=
    after (Java_com_builder_runtime_wasm_WasmRuntime_destroyModule
             thiz (fst mi)) w2 in
  let w4 :=
    after (Java_com_builder_runtime_wasm_WasmRuntime_destroyInstance
             thiz (snd mi)) w3 in
  let w5 :=
    after (Java_com_builder_runtime_wasm_WasmRuntime_destroyModule
             thiz (fst mi)) w4 in
  ((w2, w3), (w4, w5)).

Local Close Scope jni_scope.

(** [add(i32,i32)->i32] *)
Definition add_type : Wasm.functype :=
  Wasm.mkFunctype [Wasm.I32; Wasm.I32] [Wasm.I32].

(** The document carries the single value 5, as a decimal string or as
    a number. *)
Definition is_five (doc : string) : bool :=
  match success_values doc with
  | Some [JString s] => String.eqb s "5"
  | Some [JNumber s] => String.eqb s "5"
  | _ => false
  end.

(* ================================================================== *)
(** ** The statements of the specification, as properties of the bridge *)

(** Section 8, concrete scenario: [call(h, add, [2,3])] on an instance of
    the module [add_wasm] yields the value 5. *)
Definition add_contract : Prop :=
  forall thiz w,
    is_five (result (call_session thiz add_wasm default_config
                       "add" "[2,3]") w) = true.

(** Section 6: a result document has one of the two shapes. *)
Definition result_shape_contract : Prop :=
  forall thiz h f a w,
    let doc := result (Java_com_builder_runtime_wasm_WasmRuntime_call
                         thiz h f a) w in
    is_success doc = true \/ is_failure doc = true.

(** Section 6: the handle is 0 exactly when loading fails.  [compiles]
    is the verdict of the engine's compile capability on the bytes. *)
Definition load_contract (compiles : jbyteArray -> bool) : Prop :=
  forall thiz wasm_bytes w,
    result (Java_com_builder_runtime_wasm_WasmRuntime_loadModuleFromBytes
              thiz wasm_bytes) w = 0
    <-> compiles wasm_bytes = false.

(** Section 4.4: instantiation of a valid module handle with a valid
    configuration returns a nonzero handle, unless the engine refuses
    and [InstantiateError] is reported; on a stale module handle it
    fails with [InvalidHandle].  [valid h] says that [h] denotes a
    Module; the bridge keeps no table from which to tell, so the notion
    is left open. *)
Definition instantiate_contract (valid : jlong -> bool) : Prop :=
  forall thiz h config w,
    wasi_config_ok config = true ->
    let m := Java_com_builder_runtime_wasm_WasmRuntime_instantiate
               thiz h config in
    (valid h = true ->
     result m w <> 0 \/ reports "InstantiateError" w (after m w) = true)
    /\ (valid h = false -> reports "InvalidHandle" w (after m w) = true).

(** Section 8: destroying a module whose instance has not been destroyed
    fails with [ModuleInUse]; once the instance is destroyed it
    succeeds. *)
Definition module_in_use_contract : Prop :=
  forall thiz wasm_bytes config w,
    Wasm.decode wasm_bytes <> None ->
    wasi_config_ok config = true ->
    let '((w2, w3), (w4, w5)) := destroy_session thiz wasm_bytes config w in
    reports "ModuleInUse" w2 w3 = true /\ silent w4 w5 = true.

(** The same statement for an open notion of use: [in_use w h] says that
    in the world [w] the handle [h] denotes a Module that a live
    Instance still refers to. *)
Definition in_use_contract (in_use : World -> jlong -> bool) : Prop :=
  forall thiz h w,
    in_use w h = true ->
    reports "ModuleInUse" w
      (after (Java_com_builder_runtime_wasm_WasmRuntime_destroyModule thiz h)
             w) = true.

(** Section 8: a call with the wrong number of arguments fails with
    [ArityMismatch]. *)
Definition arity_contract : Prop :=
  forall thiz wasm_bytes config f args n k w,
    wasi_config_ok config = true ->
    Wasm.export_arity wasm_bytes f = Some n ->
    args_length args = Some k ->
    k <> n ->
    fails_with "ArityMismatch"
      (result (call_session thiz wasm_bytes config f args) w) = true.

(* ================================================================== *)
(** ** Marshalling of 64-bit integer results *)

Module Marshal.

Definition INT64_MIN : Z := - 2 ^ 63.
Definition INT64_MAX : Z := 2 ^ 63 - 1.

(** Modelled from the spec: the decimal-string encoding of a 64-bit
    integer result, which the source does not contain (its [call]
    returns a fixed document).  Section 4.5 and 6: 64-bit integers are
    encoded as decimal strings. *)
Fixpoint to_digits (fuel : nat) (n : Z) (acc : list Z) : list Z :=
  match fuel with
  | O => acc
  | S fuel' =>
      let acc' := n mod 10 :: acc in
      if (n / 10 =? 0)%Z then acc' else to_digits fuel' (n / 10) acc'
  end.

Definition digit_char (d : Z) : ascii := ascii_of_N (48 + Z.to_N d).

Fixpoint string_of_digits (ds : list Z) : string :=
  match ds with
  | [] => EmptyString
  | d :: ds' => String (digit_char d) (string_of_digits ds')
  end.

(** Modelled from the spec: see [to_digits].  A minus sign, then the
    digits of the magnitude, most significant first. *)
Definition encode_i64 (v : Z) : string :=
  let body := string_of_digits (to_digits 19 (Z.abs v) []) in
  if (v <? 0)%Z then String "-" body else body.

Definition digit_val (c : ascii) : Z := Z.of_N (N_of_ascii c) - 48.

(** Modelled from the spec: the re-parsing of such a string.  Digits
    are accumulated most significant first; a magnitude beyond 2^63
    stops the scan. *)
Fixpoint parse_digits (s : string) (acc : Z) : option Z :=
  match s with
  | EmptyString => Some acc
  | String c s' =>
      if Json.is_digit c then
        let acc' := 10 * acc + digit_val c in
        if (acc' >? 2 ^ 63)%Z then None else parse_digits s' acc'
      else None
  end.

(** Modelled from the spec: see [parse_digits].  The result is a signed
    64-bit integer or nothing. *)
Definition decode_i64 (s : string) : option Z :=
  match s with
  | EmptyString => None
  | String "-" EmptyString => None
  | String "-" s' =>
      match parse_digits s' 0 with
      | Some m => Some (- m)
      | None => None
      end
  | _ =>
      match parse_digits s 0 with
      | Some m => if (m <=? INT64_MAX)%Z then Some m else None
      | None => None
      end
  end.

(** Modelled from the spec: the success document of section 6 carrying
    64-bit integer values, [{ok:true, values:[..]}] with each value a
    decimal string. *)
Fixpoint values_text (vs : list Z) : string :=
  match vs with
  | [] => EmptyString
  | [v] => String dquote (encode_i64 v ++ String dquote EmptyString)
  | v :: vs' =>
      String dquote (encode_i64 v ++ String dquote (String "," (values_text vs')))
  end.

Definition success_document (vs : list Z) : string :=
  c_str "{'ok':true,'values':[" ++ values_text vs ++ "]}".

(** Reading the 64-bit values back from a result document. *)
Fixpoint decode_values (js : list json) : option (list Z) :=
  match js with
  | [] => Some []
  | JString s :: js' =>
      match decode_i64 s, decode_values js' with
      | Some v, Some vs => Some (v :: vs)
      | _, _ => None
      end
  | _ :: _ => None
  end.

Definition read_values (doc : string) : option (list Z) :=
  match success_values doc with
  | Some js => decode_values js
  | None => None
  end.

End Marshal.

(* ================================================================== *)
(** ** Summary of the effects of the bridge *)

(** An information record of the bridge, cut as liblog cuts it. *)
Definition info (fmt : string) (args : list string) : LogRecord :=
  mkLog ANDROID_LOG_INFO LOG_TAG
        (truncate (LOG_BUF_SIZE - 1) (format fmt args)).

(** The world [w] with the records [rs] appended to its log and nothing
    else changed. *)
Definition logged (w : World) (rs : list LogRecord) : World :=
  mkWorld (logcat w ++ rs) (utf_chars w) (pending_exception w).

(** The records each operation writes. *)
Definition op_records (op : Op) : list LogRecord :=
  match op with
  | OpLoadModuleFromBytes _ =>
      [info "loadModuleFromBytes called (stub implementation)" []]
  | OpLoadModule _ =>
      [info "loadModule called (stub implementation)" []]
  | OpInstantiate _ config =>
      [info "instantiate called (stub implementation)" [];
       info "WASI config: %s" [config]]
  | OpCall _ f a =>
      [info "call called (stub implementation)" [];
       info "Calling function: %s with args: %s" [f; a]]
  | OpDestroyInstance _ =>
      [info "destroyInstance called (stub implementation)" []]
  | OpDestroyModule _ =>
      [info "destroyModule called (stub implementation)" []]
  end.

(** The value each operation returns. *)
Definition op_result (op : Op) : Ret :=
  match op with
  | OpLoadModuleFromBytes _ | OpLoadModule _ | OpInstantiate _ _ =>
      RetHandle 0
  | OpCall _ _ _ => RetString stub_document
  | OpDestroyInstance _ | OpDestroyModule _ => RetVoid
  end.

(** Everything of the world but its log. *)
Definition jvm_state (w : World) : list string * option string :=
  (utf_chars w, pending_exception w).

(** [d] returns normally and changes nothing but the log, to which it
    appends the record [r]; any session run after it returns the values,
    writes the records and leaves the state it would have without [d]. *)
Definition changes_nothing (d : JNI unit) (r : LogRecord) : Prop :=
  forall w,
    thrown w (after d w) = None
    /\ silent w (after d w) = true
    /\ jvm_state (after d w) = jvm_state w
    /\ new_records w (after d w) = [r]
    /\ forall thiz ops,
         let s := run_ops thiz ops in
         result s (after d w) = result s w
         /\ jvm_state (after s (after d w)) = jvm_state (after s w)
         /\ new_records (after d w) (after s (after d w))
            = new_records w (after s w).

(** What [Wasm.decode] reads from [add_wasm]. *)
Definition add_module : Wasm.module_info :=
  Wasm.mkModule [add_type] [0%N] [Wasm.mkExport "add" 0 0].

(** The engine's verdict on bytes, as far as this reader can give it:
    the bytes are a well-formed module. *)
Definition well_formed (wasm_bytes : jbyteArray) : bool :=
  match Wasm.decode wasm_bytes with
  | Some _ => true
  | None => false
  end.

(** The number a list of digits denotes, most significant first,
    continuing from [a]. *)
Definition horner (ds : list Z) (a : Z) : Z :=
  fold_left (fun a d => 10 * a + d) ds a.

(** A decimal digit. *)
Definition is_dec (d : Z) : Prop := 0 <= d <= 9.

(** A 64-bit value as an element of the values array. *)
Definition item (v : Z) : json := JString (Marshal.encode_i64 v).

(** A character that stands for itself inside a JSON string. *)
Definition plain_char (c : ascii) : bool :=
  negb (Ascii.eqb c dquote) && negb (Ascii.eqb c "\")
  && negb (nat_of_ascii c <? 32)%nat.

Fixpoint plain (s : string) : bool :=
  match s with
  | EmptyString => true
  | String c s' => plain_char c && plain s'
  end.

Definition in_int64 (v : Z) : Prop :=
  Marshal.INT64_MIN <= v <= Marshal.INT64_MAX.

(** *** Vocabulary for whole sessions *)

(** Number of log records an operation writes. *)
Definition op_weight (op : Op) : nat :=
  match op with
  | OpInstantiate _ _ | OpCall _ _ _ => 2
  | _ => 1
  end.

(** A record as the bridge writes them: information priority, under
    the bridge's tag. *)
Definition bridge_record (r : LogRecord) : Prop :=
  log_prio r = ANDROID_LOG_INFO /\ log_tag r = LOG_TAG.

(** A returned value as the bridge produces them: the null handle, the
    placeholder document, or nothing. *)
Definition stub_value (r : Ret) : Prop :=
  match r with
  | RetHandle h => h = 0
  | RetString s => s = stub_document
  | RetVoid => True
  end.

(** The same operation with its handle arguments replaced. *)
Definition with_handle (h : jlong) (op : Op) : Op :=
  match op with
  | OpInstantiate _ config => OpInstantiate h config
  | OpCall _ f a => OpCall h f a
  | OpDestroyInstance _ => OpDestroyInstance h
  | OpDestroyModule _ => OpDestroyModule h
  | OpLoadModuleFromBytes _ | OpLoadModule _ => op
  end.

(* ================================================================== *)
(** * Properties *)

(** ** The definitions at work *)

Example call_add_2_3 :
  Java_com_builder_runtime_wasm_WasmRuntime_call 7 1 "add" "[2,3]" empty_world
  = (stub_document,
     mkWorld
       [mkLog ANDROID_LOG_INFO "WasmtimeJNI"
              "call called (stub implementation)";
        mkLog ANDROID_LOG_INFO "WasmtimeJNI"
              "Calling function: add with args: [2,3]"]
       [] None).
Proof. reflexivity. Qed.

Example instantiate_default :
  Java_com_builder_runtime_wasm_WasmRuntime_instantiate
    7 1 default_config empty_world
  = (0,
     mkWorld
       [mkLog ANDROID_LOG_INFO "WasmtimeJNI"
              "instantiate called (stub implementation)";
        mkLog ANDROID_LOG_INFO "WasmtimeJNI" "WASI config: {}"]
       [] None).
Proof. reflexivity. Qed.

Example parse_stub_document :
  Json.parse stub_document = Some (JObject [("result", JString "stub")]).
Proof. reflexivity. Qed.

Example parse_args_2_3 :
  Json.parse "[2,3]" = Some (JArray [JNumber "2"; JNumber "3"]).
Proof. reflexivity. Qed.

Example parse_nested :
  Json.parse (c_str " { 'a' : [ 1.5e3 , true , null , {} ] , 'b' : 'x\ny' } ")
  = Some (JObject
            [("a", JArray [JNumber "1.5e3"; JBool true; JNull; JObject []]);
             ("b", JString (String "x" (String (ascii_of_nat 10) "y")))]).
Proof. reflexivity. Qed.

Example parse_rejects_trailing_comma : Json.parse "[1,]" = None.
Proof. reflexivity. Qed.

Example decode_add_wasm : Wasm.decode add_wasm = Some add_module.
Proof. reflexivity. Qed.

Example add_arity : Wasm.export_arity add_wasm "add" = Some 2%nat.
Proof. reflexivity. Qed.

Example decode_truncated : Wasm.decode (firstn 12 add_wasm) = None.
Proof. reflexivity. Qed.

Example encode_min :
  Marshal.encode_i64 Marshal.INT64_MIN = "-9223372036854775808".
Proof. reflexivity. Qed.

Example decode_overflow :
  Marshal.decode_i64 "9223372036854775808" = None.
Proof. reflexivity. Qed.

Example success_document_5 :
  Marshal.success_document [5] = c_str "{'ok':true,'values':['5']}".
Proof. reflexivity. Qed.

(** ** The effect of each entry point *)

Lemma remove_first_head (s : string) (l : list string) :
  remove_first s (s :: l) = l.
Proof. simpl. now rewrite String.eqb_refl. Qed.

Lemma remove_first_two (a b : string) (l : list string) :
  remove_first b (remove_first a (b :: a :: l)) = l.
Proof.
  simpl. destruct (String.eqb b a) eqn:E.
  - apply String.eqb_eq in E. subst. apply remove_first_head.
  - rewrite String.eqb_refl. apply remove_first_head.
Qed.

Lemma logged_nil (w : World) : logged w [] = w.
Proof. destruct w. unfold logged. simpl. now rewrite app_nil_r. Qed.

Lemma logged_logged (w : World) (r1 r2 : list LogRecord) :
  logged (logged w r1) r2 = logged w (r1 ++ r2).
Proof. unfold logged. simpl. now rewrite app_assoc. Qed.

Lemma loadModuleFromBytes_effect thiz wasm_bytes w :
  Java_com_builder_runtime_wasm_WasmRuntime_loadModuleFromBytes
    thiz wasm_bytes w
  = (0, logged w (op_records (OpLoadModuleFromBytes wasm_bytes))).
Proof. reflexivity. Qed.

Lemma loadModule_effect thiz wasm_file w :
  Java_com_builder_runtime_wasm_WasmRuntime_loadModule thiz wasm_file w
  = (0, logged w (op_records (OpLoadModule wasm_file))).
Proof. reflexivity. Qed.

Lemma instantiate_effect thiz module_handle config w :
  Java_com_builder_runtime_wasm_WasmRuntime_instantiate
    thiz module_handle config w
  = (0, logged w (op_records (OpInstantiate module_handle config))).
Proof.
  unfold Java_com_builder_runtime_wasm_WasmRuntime_instantiate, bind, ret,
    LOGI, __android_log_print, GetStringUTFChars, ReleaseStringUTFChars,
    logged, op_records, info.
  cbn [logcat utf_chars pending_exception].
  rewrite remove_first_head, <- app_assoc. reflexivity.
Qed.

Lemma call_effect thiz instance_handle function_name args_json w :
  Java_com_builder_runtime_wasm_WasmRuntime_call
    thiz instance_handle function_name args_json w
  = (stub_document,
     logged w (op_records (OpCall instance_handle function_name args_json))).
Proof.
  unfold Java_com_builder_runtime_wasm_WasmRuntime_call, bind, ret,
    LOGI, __android_log_print, GetStringUTFChars, ReleaseStringUTFChars,
    NewStringUTF, logged, op_records, info.
  cbn [logcat utf_chars pending_exception].
  rewrite remove_first_two, <- app_assoc. reflexivity.
Qed.

Lemma destroyInstance_effect thiz instance_handle w :
  Java_com_builder_runtime_wasm_WasmRuntime_destroyInstance
    thiz instance_handle w
  = (tt, logged w (op_records (OpDestroyInstance instance_handle))).
Proof. reflexivity. Qed.

Lemma destroyModule_effect thiz module_handle w :
  Java_com_builder_runtime_wasm_WasmRuntime_destroyModule
    thiz module_handle w
  = (tt, logged w (op_records (OpDestroyModule module_handle))).
Proof. reflexivity. Qed.

Lemma run_op_effect thiz op w :
  run_op thiz op w = (op_result op, logged w (op_records op)).
Proof.
  destruct op; unfold run_op, bind, ret.
  - now rewrite loadModuleFromBytes_effect.
  - now rewrite loadModule_effect.
  - now rewrite instantiate_effect.
  - now rewrite call_effect.
  - now rewrite destroyInstance_effect.
  - now rewrite destroyModule_effect.
Qed.

(** A whole session returns the values of its operations and appends
    their records, in order. *)
Lemma run_ops_effect thiz ops : forall w,
  run_ops thiz ops w
  = (map op_result ops, logged w (flat_map op_records ops)).
Proof.
  induction ops as [|op ops IH]; intro w.
  - simpl. unfold ret. now rewrite logged_nil.
  - cbn [run_ops map flat_map]. unfold bind at 1.
    rewrite run_op_effect. unfold bind at 1. rewrite IH.
    unfold ret. now rewrite logged_logged.
Qed.

(** ** What the host can observe of a call that only logs *)

Lemma new_records_logged w rs : new_records w (logged w rs) = rs.
Proof.
  unfold new_records, logged. cbn [logcat].
  induction (logcat w) as [|r l IH]; [reflexivity | exact IH].
Qed.

Lemma thrown_logged w rs : thrown w (logged w rs) = None.
Proof.
  unfold thrown, logged. cbn [pending_exception].
  now destruct (pending_exception w).
Qed.


Lemma op_records_info op :
  forallb (fun r => negb (is_error_record r)) (op_records op) = true.
Proof. destruct op; reflexivity. Qed.

Lemma no_error_record (rs : list LogRecord) (p : LogRecord -> bool) :
  forallb (fun r => negb (is_error_record r)) rs = true ->
  existsb (fun r => is_error_record r && p r) rs = false.
Proof.
  induction rs as [|r rs IH]; simpl; [reflexivity|].
  intro H. apply andb_true_iff in H. destruct H as [Hr Hrs].
  rewrite (IH Hrs). destruct (is_error_record r); [discriminate | reflexivity].
Qed.

Lemma reports_logged kind w op :
  reports kind w (logged w (op_records op)) = false.
Proof.
  unfold reports. rewrite thrown_logged, new_records_logged. simpl.
  apply no_error_record, op_records_info.
Qed.

Lemma silent_logged w op : silent w (logged w (op_records op)) = true.
Proof.
  unfold silent. rewrite thrown_logged, new_records_logged.
  generalize (op_records_info op).
  induction (op_records op) as [|r rs IH]; simpl; [reflexivity|].
  intro H. apply andb_true_iff in H. destruct H as [Hr Hrs].
  destruct (is_error_record r); [discriminate|]. simpl. now apply IH.
Qed.



Lemma call_session_effect thiz wasm_bytes config f args w :
  call_session thiz wasm_bytes config f args w
  = (stub_document,
     logged w (flat_map op_records
                 [OpLoadModuleFromBytes wasm_bytes;
                  OpInstantiate 0 config;
                  OpCall 0 f args])).
Proof.
  unfold call_session, load_instantiate, bind, ret.
  rewrite loadModuleFromBytes_effect, instantiate_effect.
  cbn [snd]. rewrite call_effect, !logged_logged. reflexivity.
Qed.

Lemma load_instantiate_effect thiz wasm_bytes config w :
  load_instantiate thiz wasm_bytes config w
  = ((0, 0),
     logged w (flat_map op_records
                 [OpLoadModuleFromBytes wasm_bytes; OpInstantiate 0 config])).
Proof.
  unfold load_instantiate, bind, ret.
  rewrite loadModuleFromBytes_effect, instantiate_effect, logged_logged.
  reflexivity.
Qed.

(** Running the bridge symbolically: every entry point and scenario is
    replaced by its value and its records. *)
Create Rewrite HintDb bridge.

#[local] Hint Rewrite
  loadModuleFromBytes_effect loadModule_effect instantiate_effect
  call_effect destroyInstance_effect destroyModule_effect
  run_ops_effect new_records_logged thrown_logged : bridge.

Ltac run_bridge :=
  cbv zeta; unfold result, after;
  repeat progress (autorewrite with bridge; cbn [fst snd]).

(* ================================================================== *)
(** ** The concrete scenario: add(2,3) *)

(** C1, as the bridge behaves: for a module exporting
    [add(i32,i32)->i32], loaded and instantiated with the default
    configuration, both handles that come back are 0 and [call] on the
    instance handle with function name add and arguments [[2,3]] returns
    the placeholder document [{result: stub}], not a document carrying
    the value 5. *)
Theorem add_scenario_returns_stub thiz wasm_bytes m w :
  Wasm.decode wasm_bytes = Some m ->
  Wasm.export_signature m "add" = Some add_type ->
  result (load_instantiate thiz wasm_bytes default_config) w = (0, 0)
  /\ result (call_session thiz wasm_bytes default_config "add" "[2,3]") w
     = stub_document
  /\ is_five
       (result (call_session thiz wasm_bytes default_config "add" "[2,3]") w)
     = false.
Proof.
  intros _ _. unfold result.
  rewrite load_instantiate_effect, call_session_effect. repeat split.
Qed.

Lemma add_scenario_returns_stub_witness :
  result (load_instantiate 7 add_wasm default_config) empty_world = (0, 0)
  /\ result (call_session 7 add_wasm default_config "add" "[2,3]")
            empty_world
     = stub_document
  /\ is_five
       (result (call_session 7 add_wasm default_config "add" "[2,3]")
               empty_world)
     = false.
Proof.
  apply (add_scenario_returns_stub 7 add_wasm add_module empty_world);
    reflexivity.
Defined.

(** C1 fails on the bridge: the module [add_wasm] exports
    [add(i32,i32)->i32], and the scenario's result document does not
    carry the value 5 in either encoding. *)
Lemma add_scenario_not_five :
  Wasm.decode add_wasm = Some add_module
  /\ Wasm.export_signature add_module "add" = Some add_type
  /\ result (call_session 7 add_wasm default_config "add" "[2,3]")
            empty_world
     = stub_document
  /\ ~ add_contract.
Proof.
  repeat split.
  intro H. specialize (H 7 empty_world). discriminate H.
Qed.

(* ================================================================== *)
(** ** The shape of result documents *)

(** C2, as the bridge behaves: for every instance handle, function name
    and arguments document, the JSON text returned by [call] is the
    object with the single member result whose value is the string stub;
    it has neither the shape [{ok: true, values: [...]}] nor the shape
    [{ok: false, kind, message}]. *)
Theorem call_result_shape thiz instance_handle function_name args_json w :
  let doc := result (Java_com_builder_runtime_wasm_WasmRuntime_call
                       thiz instance_handle function_name args_json) w in
  Json.parse doc = Some (JObject [("result", JString "stub")])
  /\ is_success doc = false
  /\ is_failure doc = false.
Proof.
  run_bridge. repeat split.
Qed.

(** C2 fails on the bridge: the document returned for [call(1, add,
    [2,3])] has neither of the two shapes. *)
Lemma call_result_neither_shape :
  (let doc := result (Java_com_builder_runtime_wasm_WasmRuntime_call
                        7 1 "add" "[2,3]") empty_world in
   doc = stub_document /\ is_success doc = false /\ is_failure doc = false)
  /\ ~ result_shape_contract.
Proof.
  split; [repeat split|].
  intro H. specialize (H 7 1 "add" "[2,3]" empty_world).
  destruct H as [H|H]; discriminate H.
Qed.

(** C9: any two invocations of [call], whatever their receiver, instance
    handle, function name, arguments document and world, return the same
    string, the constant [{result: stub}]. *)
Theorem call_result_constant
    thiz1 h1 f1 a1 w1 thiz2 h2 f2 a2 w2 :
  result (Java_com_builder_runtime_wasm_WasmRuntime_call thiz1 h1 f1 a1) w1
  = result (Java_com_builder_runtime_wasm_WasmRuntime_call thiz2 h2 f2 a2) w2
  /\ result (Java_com_builder_runtime_wasm_WasmRuntime_call thiz1 h1 f1 a1) w1
     = stub_document.
Proof.
  run_bridge. split; reflexivity.
Qed.

(** The log, unlike the returned string, does show the inputs: the
    second record of a call spells out the function name and the
    arguments. *)
Lemma call_logs_inputs thiz h f a w :
  new_records w
    (after (Java_com_builder_runtime_wasm_WasmRuntime_call thiz h f a) w)
  = [info "call called (stub implementation)" [];
     info "Calling function: %s with args: %s" [f; a]].
Proof.
  run_bridge. reflexivity.
Qed.

(* ================================================================== *)
(** ** Loading *)

(** Whatever verdict the engine would give, [load_contract] cannot hold
    for an engine that compiles anything at all. *)
Lemma load_contract_refuted (compiles : jbyteArray -> bool) wasm_bytes :
  compiles wasm_bytes = true -> ~ load_contract compiles.
Proof.
  intros Hc H. destruct (H 0 wasm_bytes empty_world) as [H0 _].
  rewrite H0 in Hc; [discriminate | reflexivity].
Qed.

(** C3, as the bridge behaves: for every byte input,
    [loadModuleFromBytes] returns 0, whether or not the bytes are a
    well-formed module; it writes one information record and changes
    nothing else, so no handle, Module or reference count comes into
    being and no error is reported. *)
Theorem loadModuleFromBytes_returns_zero thiz wasm_bytes w :
  let m := Java_com_builder_runtime_wasm_WasmRuntime_loadModuleFromBytes
             thiz wasm_bytes in
  result m w = 0
  /\ new_records w (after m w)
     = [info "loadModuleFromBytes called (stub implementation)" []]
  /\ jvm_state (after m w) = jvm_state w
  /\ silent w (after m w) = true.
Proof.
  run_bridge. repeat split. apply silent_logged.
Qed.

(** C3 fails on the bridge: [add_wasm] is a well-formed module, and
    loading it returns 0; no engine that compiles any module at all
    agrees with the bridge on when loading fails. *)
Lemma load_well_formed_returns_zero :
  well_formed add_wasm = true
  /\ result (Java_com_builder_runtime_wasm_WasmRuntime_loadModuleFromBytes
               7 add_wasm) empty_world = 0
  /\ ~ load_contract well_formed
  /\ ~ (exists compiles,
          (exists wasm_bytes, compiles wasm_bytes = true)
          /\ load_contract compiles).
Proof.
  repeat split.
  - apply (load_contract_refuted well_formed add_wasm). reflexivity.
  - intros (compiles & (wasm_bytes & Hc) & H).
    exact (load_contract_refuted compiles wasm_bytes Hc H).
Qed.

(* ================================================================== *)
(** ** Instantiation *)

(** C4, as the bridge behaves: for every module handle, stale or not,
    and every configuration document, [instantiate] returns 0; it
    reports neither [InvalidHandle] nor [InstantiateError], and apart
    from its two information records (the second shows the
    configuration) it changes nothing, so no Instance comes into being
    in any lifecycle state. *)
Theorem instantiate_returns_zero thiz module_handle config w :
  let m := Java_com_builder_runtime_wasm_WasmRuntime_instantiate
             thiz module_handle config in
  result m w = 0
  /\ reports "InvalidHandle" w (after m w) = false
  /\ reports "InstantiateError" w (after m w) = false
  /\ new_records w (after m w)
     = [info "instantiate called (stub implementation)" [];
        info "WASI config: %s" [config]]
  /\ jvm_state (after m w) = jvm_state w.
Proof.
  run_bridge. repeat split; apply reports_logged.
Qed.

(** Whatever handles count as valid, [instantiate_contract] fails: on
    a valid handle there is neither a nonzero result nor an
    [InstantiateError], on a stale one no [InvalidHandle]. *)
Lemma instantiate_contract_refuted (valid : jlong -> bool) :
  ~ instantiate_contract valid.
Proof.
  intro H.
  destruct (H 7 0 default_config empty_world eq_refl) as [Hv Hs].
  destruct (valid 0).
  - destruct (Hv eq_refl) as [Hr|Hr]; [now apply Hr | discriminate Hr].
  - discriminate (Hs eq_refl).
Qed.

(** C4 fails on the bridge: instantiating the handle that loading
    [add_wasm] returned, with the default configuration, returns 0 and
    reports no error kind; so the statement fails whether that handle
    counts as valid or as stale. *)
Lemma instantiate_neither_succeeds_nor_reports :
  wasi_config_ok default_config = true
  /\ (let l := Java_com_builder_runtime_wasm_WasmRuntime_loadModuleFromBytes
                 7 add_wasm in
      let m := Java_com_builder_runtime_wasm_WasmRuntime_instantiate
                 7 (result l empty_world) default_config in
      let w := after l empty_world in
      result m w = 0
      /\ reports "InvalidHandle" w (after m w) = false
      /\ reports "InstantiateError" w (after m w) = false)
  /\ ~ (exists valid, instantiate_contract valid).
Proof.
  split; [reflexivity|]. split; [repeat split|].
  intros (valid & H). exact (instantiate_contract_refuted valid H).
Qed.

(* ================================================================== *)
(** ** Destroying a module *)

(** C5, as the bridge behaves: [destroyModule] never fails with
    [ModuleInUse].  On every handle and in every world it returns
    normally and reports no error; in particular it does so right after
    the module was loaded and instantiated, with the instance not
    destroyed, and again after the instance was destroyed. *)
Theorem destroyModule_never_in_use thiz module_handle wasm_bytes config w :
  (let m := Java_com_builder_runtime_wasm_WasmRuntime_destroyModule
              thiz module_handle in
   reports "ModuleInUse" w (after m w) = false
   /\ silent w (after m w) = true
   /\ jvm_state (after m w) = jvm_state w)
  /\ (let '((w2, w3), (w4, w5)) :=
        destroy_session thiz wasm_bytes config w in
      reports "ModuleInUse" w2 w3 = false
      /\ silent w2 w3 = true
      /\ silent w4 w5 = true).
Proof.
  split.
  - run_bridge.
    repeat split; [apply reports_logged | apply silent_logged].
  - unfold destroy_session. rewrite load_instantiate_effect. run_bridge.
    repeat split; [apply reports_logged | apply silent_logged ..].
Qed.

(** Whatever it means for a module to be in use, [in_use_contract]
    fails as soon as some module is in use. *)
Lemma in_use_contract_refuted (in_use : World -> jlong -> bool) w h :
  in_use w h = true -> ~ in_use_contract in_use.
Proof.
  intros Hu H. specialize (H 7 h w Hu). revert H. run_bridge.
  now rewrite reports_logged.
Qed.

(** C5 fails on the bridge: after [add_wasm] was loaded and
    instantiated, and before the instance is destroyed, [destroyModule]
    on the module handle reports no [ModuleInUse]; and under no notion
    of use that some module ever satisfies does [destroyModule] report
    it. *)
Lemma destroyModule_in_use_not_reported :
  well_formed add_wasm = true
  /\ wasi_config_ok default_config = true
  /\ (let '((w2, w3), _) :=
        destroy_session 7 add_wasm default_config empty_world in
      reports "ModuleInUse" w2 w3 = false /\ silent w2 w3 = true)
  /\ ~ module_in_use_contract
  /\ ~ (exists in_use,
          (exists w h, in_use w h = true) /\ in_use_contract in_use).
Proof.
  repeat split.
  - intro H.
    specialize (H 7 add_wasm default_config empty_world).
    assert (Hd : Wasm.decode add_wasm <> None) by discriminate.
    specialize (H Hd eq_refl).
    destruct H as [H _]. discriminate H.
  - intros (in_use & (w & h & Hu) & H).
    exact (in_use_contract_refuted in_use w h Hu H).
Qed.

(* ================================================================== *)
(** ** Arity *)

(** C6, as the bridge behaves: a call whose arguments document is a
    JSON array of a length other than the arity of the named export
    does not fail with [ArityMismatch]; it returns the placeholder
    document like every other call.  The engine is not reached: all the
    session does to the world is write its information records. *)
Theorem arity_mismatch_returns_stub
    thiz wasm_bytes config f args n k w :
  wasi_config_ok config = true ->
  Wasm.export_arity wasm_bytes f = Some n ->
  args_length args = Some k ->
  k <> n ->
  let m := call_session thiz wasm_bytes config f args in
  result m w = stub_document
  /\ fails_with "ArityMismatch" (result m w) = false
  /\ is_failure (result m w) = false
  /\ after m w
     = logged w
         [info "loadModuleFromBytes called (stub implementation)" [];
          info "instantiate called (stub implementation)" [];
          info "WASI config: %s" [config];
          info "call called (stub implementation)" [];
          info "Calling function: %s with args: %s" [f; args]].
Proof.
  intros _ _ _ _. cbv zeta. unfold result, after.
  rewrite call_session_effect. repeat split.
Qed.

Lemma arity_mismatch_returns_stub_witness :
  let m := call_session 7 add_wasm default_config "add" "[1]" in
  result m empty_world = stub_document
  /\ fails_with "ArityMismatch" (result m empty_world) = false
  /\ is_failure (result m empty_world) = false
  /\ after m empty_world
     = logged empty_world
         [info "loadModuleFromBytes called (stub implementation)" [];
          info "instantiate called (stub implementation)" [];
          info "WASI config: %s" [default_config];
          info "call called (stub implementation)" [];
          info "Calling function: %s with args: %s" ["add"; "[1]"]].
Proof.
  apply (arity_mismatch_returns_stub
           7 add_wasm default_config "add" "[1]" 2%nat 1%nat empty_world).
  - reflexivity.
  - reflexivity.
  - reflexivity.
  - lia.
Defined.

(** C6 fails on the bridge: [add] of [add_wasm] takes two arguments,
    the arguments document [[1]] has one, and the call does not fail
    with [ArityMismatch]. *)
Lemma arity_mismatch_not_reported :
  Wasm.export_arity add_wasm "add" = Some 2%nat
  /\ args_length "[1]" = Some 1%nat
  /\ (let doc := result (call_session 7 add_wasm default_config "add" "[1]")
                        empty_world in
      doc = stub_document /\ fails_with "ArityMismatch" doc = false)
  /\ ~ arity_contract.
Proof.
  repeat split.
  intro H.
  specialize (H 7 add_wasm default_config "add" "[1]" 2%nat 1%nat
                empty_world eq_refl eq_refl eq_refl).
  assert (Hne : 1%nat <> 2%nat) by discriminate.
  specialize (H Hne). discriminate H.
Qed.

(* ================================================================== *)
(** ** Destroying changes nothing *)

(** The values a session returns and the records it writes do not
    depend on the log it starts with, nor does what it leaves behind
    besides the log. *)
Lemma run_ops_frame thiz ops w rs :
  let s := run_ops thiz ops in
  result s (logged w rs) = result s w
  /\ jvm_state (after s (logged w rs)) = jvm_state (after s w)
  /\ new_records (logged w rs) (after s (logged w rs))
     = new_records w (after s w).
Proof.
  run_bridge. repeat split.
Qed.

Lemma logging_changes_nothing (d : JNI unit) (op : Op) (r : LogRecord) :
  op_records op = [r] ->
  (forall w, d w = (tt, logged w (op_records op))) ->
  changes_nothing d r.
Proof.
  intros Hr Hd w.
  assert (Ha : after d w = logged w (op_records op))
    by (unfold after; now rewrite Hd).
  rewrite Ha, thrown_logged, silent_logged, new_records_logged.
  split; [reflexivity|]. split; [reflexivity|]. split; [reflexivity|].
  split; [exact Hr|].
  intros thiz ops. apply run_ops_frame.
Qed.

(** C10: for every handle, [destroyInstance] and [destroyModule] return
    normally (no exception is left pending, no error is logged) and
    change nothing but the log, to which each appends its one
    information record.  Every later session of operations, on any
    handles, returns exactly the values it would have returned without
    the destroy call, writes the same records and leaves the same state
    behind. *)
Theorem destroy_changes_nothing thiz h :
  changes_nothing
    (Java_com_builder_runtime_wasm_WasmRuntime_destroyInstance thiz h)
    (info "destroyInstance called (stub implementation)" [])
  /\ changes_nothing
       (Java_com_builder_runtime_wasm_WasmRuntime_destroyModule thiz h)
       (info "destroyModule called (stub implementation)" []).
Proof.
  split.
  - apply (logging_changes_nothing _ (OpDestroyInstance h));
      [reflexivity | apply destroyInstance_effect].
  - apply (logging_changes_nothing _ (OpDestroyModule h));
      [reflexivity | apply destroyModule_effect].
Qed.

(* ================================================================== *)
(** ** Decimal strings of 64-bit integers *)

Section Decimal.

Import Marshal.


Lemma horner_ge ds : forall a,
  Forall is_dec ds -> 0 <= a -> a <= horner ds a.
Proof.
  induction ds as [|d ds IH]; intros a Hds Ha; [cbn; lia|].
  inversion Hds as [|? ? Hd Hds']; subst.
  change (a <= horner ds (10 * a + d)).
  unfold is_dec in Hd.
  specialize (IH (10 * a + d) Hds'). lia.
Qed.

(** The digits [to_digits] puts before [acc] denote [n]. *)
Lemma to_digits_horner fuel : forall n acc,
  0 <= n < 10 ^ Z.of_nat fuel ->
  horner (to_digits fuel n acc) 0 = horner acc n.
Proof.
  induction fuel as [|fuel IH]; intros n acc Hn.
  - cbn in Hn. assert (n = 0) by lia. subst. reflexivity.
  - cbn [to_digits].
    assert (Hdm : n = 10 * (n / 10) + n mod 10) by (apply Z.div_mod; lia).
    assert (Hm : 0 <= n mod 10 < 10) by (apply Z.mod_pos_bound; lia).
    destruct (n / 10 =? 0)%Z eqn:E.
    + apply Z.eqb_eq in E.
      change (horner acc (10 * 0 + n mod 10) = horner acc n).
      f_equal. lia.
    + apply Z.eqb_neq in E. rewrite IH.
      * change (horner acc (10 * (n / 10) + n mod 10) = horner acc n).
        f_equal. lia.
      * rewrite Nat2Z.inj_succ, Z.pow_succ_r in Hn by lia.
        split; [apply Z.div_pos; lia|].
        apply Z.div_lt_upper_bound; lia.
Qed.

Lemma to_digits_dec fuel : forall n acc,
  0 <= n -> Forall is_dec acc -> Forall is_dec (to_digits fuel n acc).
Proof.
  induction fuel as [|fuel IH]; intros n acc Hn Hacc; [exact Hacc|].
  cbn [to_digits].
  assert (Hm : 0 <= n mod 10 < 10) by (apply Z.mod_pos_bound; lia).
  assert (Hacc' : Forall is_dec (n mod 10 :: acc))
    by (constructor; [unfold is_dec; lia | exact Hacc]).
  destruct (n / 10 =? 0)%Z; [exact Hacc'|].
  apply IH; [apply Z.div_pos; lia | exact Hacc'].
Qed.

Lemma to_digits_nonempty fuel : forall n acc,
  to_digits (S fuel) n acc <> [].
Proof.
  induction fuel as [|fuel IH]; intros n acc.
  - cbn. destruct (n / 10 =? 0)%Z; discriminate.
  - cbn [to_digits]. destruct (n / 10 =? 0)%Z; [discriminate|].
    apply IH.
Qed.

(** The character of a digit is a digit character, stands for itself
    in a JSON string, and has the digit as its value. *)
Lemma digit_char_spec d :
  is_dec d ->
  Json.is_digit (digit_char d) = true
  /\ digit_val (digit_char d) = d
  /\ plain_char (digit_char d) = true.
Proof.
  intro H.
  assert (Hc : d = 0 \/ d = 1 \/ d = 2 \/ d = 3 \/ d = 4 \/
               d = 5 \/ d = 6 \/ d = 7 \/ d = 8 \/ d = 9)
    by (unfold is_dec in H; lia).
  repeat (destruct Hc as [Hc|Hc]); subst; repeat split.
Qed.

(** Scanning the characters of a digit list yields the number they
    denote, as long as it does not pass 2^63. *)
Lemma parse_digits_horner ds : forall a,
  Forall is_dec ds -> 0 <= a -> horner ds a <= 2 ^ 63 ->
  parse_digits (string_of_digits ds) a = Some (horner ds a).
Proof.
  induction ds as [|d ds IH]; intros a Hds Ha Hb; [reflexivity|].
  inversion Hds as [|? ? Hd Hds']; subst.
  cbn [string_of_digits parse_digits].
  destruct (digit_char_spec d Hd) as (Hdig & Hval & _).
  rewrite Hdig, Hval.
  change (horner (d :: ds) a) with (horner ds (10 * a + d)) in *.
  assert (H0 : 0 <= 10 * a + d) by (unfold is_dec in Hd; lia).
  pose proof (horner_ge ds (10 * a + d) Hds' H0) as Hge.
  destruct (10 * a + d >? 2 ^ 63)%Z eqn:E.
  - apply Z.gtb_lt in E. lia.
  - apply IH; assumption.
Qed.

Lemma decode_i64_digit c s :
  Json.is_digit c = true ->
  decode_i64 (String c s)
  = match parse_digits (String c s) 0 with
    | Some m => if (m <=? INT64_MAX)%Z then Some m else None
    | None => None
    end.
Proof.
  destruct c as [[] [] [] [] [] [] [] []]; intro H;
    try discriminate H; reflexivity.
Qed.

Lemma decode_i64_minus c s :
  decode_i64 (String "-" (String c s))
  = match parse_digits (String c s) 0 with
    | Some m => Some (- m)
    | None => None
    end.
Proof. reflexivity. Qed.

Lemma magnitude_digits n :
  0 <= n <= 2 ^ 63 ->
  exists d ds,
    to_digits 19 n [] = d :: ds
    /\ is_dec d
    /\ parse_digits (string_of_digits (d :: ds)) 0 = Some n.
Proof.
  intro Hn.
  assert (Hdec : Forall is_dec (to_digits 19 n []))
    by (apply to_digits_dec; [lia | constructor]).
  assert (Hval : horner (to_digits 19 n []) 0 = n).
  { rewrite to_digits_horner; [reflexivity|].
    split; [lia|]. apply Z.le_lt_trans with (2 ^ 63); [lia | reflexivity]. }
  destruct (to_digits 19 n []) as [|d ds] eqn:E.
  - exfalso. revert E. apply to_digits_nonempty.
  - exists d, ds. split; [reflexivity|].
    split; [now inversion Hdec|].
    rewrite parse_digits_horner; [now rewrite Hval | assumption | lia | lia].
Qed.

(** Decimal encoding followed by re-parsing is the identity on the
    signed 64-bit range. *)
Lemma decode_encode_i64 v :
  in_int64 v -> decode_i64 (encode_i64 v) = Some v.
Proof.
  unfold in_int64, INT64_MIN, INT64_MAX. intro Hv.
  unfold encode_i64. destruct (v <? 0)%Z eqn:E.
  - apply Z.ltb_lt in E.
    destruct (magnitude_digits (Z.abs v)) as (d & ds & Hd & _ & Hp); [lia|].
    rewrite Hd. cbn [string_of_digits] in *.
    rewrite decode_i64_minus, Hp. f_equal. lia.
  - apply Z.ltb_ge in E.
    destruct (magnitude_digits (Z.abs v)) as (d & ds & Hd & Hdd & Hp); [lia|].
    rewrite Hd. cbn [string_of_digits] in *.
    rewrite decode_i64_digit by (now apply digit_char_spec).
    rewrite Hp.
    assert (Hle : (Z.abs v <=? INT64_MAX)%Z = true)
      by (apply Z.leb_le; unfold INT64_MAX; lia).
    rewrite Hle. f_equal. lia.
Qed.

End Decimal.

(* ================================================================== *)
(** ** Result documents carrying 64-bit integers *)

Section Documents.

Import Marshal.

Lemma append_assoc (a b c : string) : (a ++ b) ++ c = a ++ (b ++ c).
Proof. induction a as [|x a IH]; cbn; [reflexivity | now rewrite IH]. Qed.

Lemma length_append (a b : string) :
  String.length (a ++ b) = (String.length a + String.length b)%nat.
Proof. induction a as [|x a IH]; cbn; [reflexivity | now rewrite IH]. Qed.

Lemma plain_digits ds : Forall is_dec ds -> plain (string_of_digits ds) = true.
Proof.
  induction 1 as [|d ds Hd _ IH]; [reflexivity|].
  cbn [string_of_digits plain].
  destruct (digit_char_spec d Hd) as (_ & _ & Hp). now rewrite Hp, IH.
Qed.

Lemma plain_encode_i64 v : plain (encode_i64 v) = true.
Proof.
  assert (H : plain (string_of_digits (to_digits 19 (Z.abs v) [])) = true).
  { apply plain_digits, to_digits_dec; [lia | constructor]. }
  unfold encode_i64. destruct (v <? 0)%Z; [|exact H].
  cbn [plain]. now rewrite H.
Qed.

(** A string of plain characters is read back as it is. *)
Lemma lex_string_plain s rest :
  plain s = true ->
  Json.lex_string (s ++ String dquote rest) = Some (s, rest).
Proof.
  induction s as [|c s IH]; intro H.
  - reflexivity.
  - cbn [plain] in H. apply andb_true_iff in H. destruct H as [Hc Hs].
    unfold plain_char in Hc.
    apply andb_true_iff in Hc. destruct Hc as [Hc H32].
    apply andb_true_iff in Hc. destruct Hc as [Hq Hb].
    apply negb_true_iff in Hq, Hb, H32.
    cbn [append Json.lex_string]. rewrite Hq, Hb, H32, (IH Hs).
    reflexivity.
Qed.

Lemma parse_value_string fuel s t rest :
  Json.lex_string s = Some (t, rest) ->
  Json.parse_value (S fuel) (String dquote s) = Some (JString t, rest).
Proof.
  intro H. cbn [Json.parse_value].
  change (Json.skip_ws (String dquote s)) with (String dquote s).
  cbv beta match. change (Ascii.eqb dquote dquote) with true.
  cbv beta match. now rewrite H.
Qed.

Lemma parse_items_eq fuel s acc :
  Json.parse_items (S fuel) s acc
  = match Json.parse_value fuel s with
    | Some (v, r) =>
        match Json.skip_ws r with
        | String "," r' => Json.parse_items fuel r' (v :: acc)
        | String "]" r' => Some (JArray (rev (v :: acc)), r')
        | _ => None
        end
    | None => None
    end.
Proof. reflexivity. Qed.

(** The elements of a values array are read back in order. *)
Lemma parse_items_values vs : forall acc fuel rest,
  vs <> [] ->
  (List.length vs < fuel)%nat ->
  Json.parse_items fuel (values_text vs ++ String "]" rest) acc
  = Some (JArray (rev acc ++ map item vs), rest).
Proof.
  induction vs as [|v vs IH]; intros acc fuel rest Hne Hf; [congruence|].
  destruct fuel as [|[|fuel]]; cbn [List.length] in Hf; try lia.
  destruct vs as [|v' vs].
  - cbn [values_text append]. rewrite append_assoc.
    rewrite parse_items_eq.
    rewrite (parse_value_string _ _ (encode_i64 v) (String "]" rest))
      by (apply lex_string_plain, plain_encode_i64).
    change (Json.skip_ws (String "]" rest)) with (String "]" rest).
    cbv beta match. reflexivity.
  - change (values_text (v :: v' :: vs))
      with (String dquote
              (encode_i64 v
               ++ String dquote (String "," (values_text (v' :: vs))))).
    cbn [append]. rewrite append_assoc. cbn [append].
    rewrite parse_items_eq.
    rewrite (parse_value_string _ _ (encode_i64 v)
               (String "," (values_text (v' :: vs) ++ String "]" rest)))
      by (apply lex_string_plain, plain_encode_i64).
    change (Json.skip_ws
              (String "," (values_text (v' :: vs) ++ String "]" rest)))
      with (String "," (values_text (v' :: vs) ++ String "]" rest)).
    cbv beta match.
    rewrite IH; [|discriminate | cbn [List.length] in *; lia].
    cbn [rev map]. now rewrite <- app_assoc.
Qed.

Lemma parse_value_array fuel tail :
  Json.parse_value (S fuel) (String "[" tail)
  = match Json.skip_ws tail with
    | String "]" rest => Some (JArray [], rest)
    | _ => Json.parse_items fuel tail []
    end.
Proof. reflexivity. Qed.

Lemma parse_value_ok_values fuel tail :
  Json.parse_value (S (S (S fuel))) (c_str "{'ok':true,'values':" ++ tail)
  = match Json.parse_value fuel tail with
    | Some (v, r) =>
        match Json.skip_ws r with
        | String "," r' =>
            Json.parse_members fuel r' [("values", v); ("ok", JBool true)]
        | String "}" r' =>
            Some (JObject [("ok", JBool true); ("values", v)], r')
        | _ => None
        end
    | None => None
    end.
Proof. reflexivity. Qed.

Lemma values_text_length vs :
  (List.length vs <= String.length (values_text vs))%nat.
Proof.
  induction vs as [|v [|v' vs] IH]; [cbn; lia | cbn; lia |].
  change (values_text (v :: v' :: vs))
    with (String dquote
            (encode_i64 v
             ++ String dquote (String "," (values_text (v' :: vs))))).
  cbn [String.length List.length] in *.
  rewrite length_append. cbn [String.length]. lia.
Qed.

(** A success document carrying 64-bit values is read back as an object
    with [ok] true and the values as decimal strings, in order. *)
Lemma parse_success_document vs :
  Json.parse (success_document vs)
  = Some (JObject [("ok", JBool true); ("values", JArray (map item vs))]).
Proof.
  unfold Json.parse.
  assert (Hfuel : exists k,
             (2 * String.length (success_document vs) + 2
              = S (S (S (S k))) /\ List.length vs < k)%nat).
  { unfold success_document. rewrite !length_append.
    pose proof (values_text_length vs) as Hl.
    change (String.length (c_str "{'ok':true,'values':[")) with 21%nat.
    change (String.length "]}") with 2%nat.
    exists (2 * (21 + (String.length (values_text vs) + 2)) - 2)%nat. lia. }
  destruct Hfuel as (k & -> & Hk).
  unfold success_document.
  change (c_str "{'ok':true,'values':[" ++ values_text vs ++ "]}")
    with (c_str "{'ok':true,'values':"
          ++ String "[" (values_text vs ++ String "]" "}")).
  rewrite parse_value_ok_values, parse_value_array.
  destruct vs as [|v vs].
  - reflexivity.
  - replace (Json.skip_ws (values_text (v :: vs) ++ String "]" "}"))
      with (values_text (v :: vs) ++ String "]" "}")
      by (destruct vs; reflexivity).
    replace (match values_text (v :: vs) ++ String "]" "}" with
             | String "]" rest => Some (JArray [], rest)
             | _ => Json.parse_items k (values_text (v :: vs)
                                        ++ String "]" "}") []
             end)
      with (Json.parse_items k (values_text (v :: vs) ++ String "]" "}") [])
      by (destruct vs; reflexivity).
    rewrite parse_items_values by (congruence || assumption).
    reflexivity.
Qed.

Lemma decode_values_items vs :
  Forall in_int64 vs -> decode_values (map item vs) = Some vs.
Proof.
  induction 1 as [|v vs Hv _ IH]; [reflexivity|].
  cbn [map]. unfold item at 1. cbn [decode_values].
  now rewrite (decode_encode_i64 v Hv), IH.
Qed.

Lemma read_values_success_document vs :
  Forall in_int64 vs -> read_values (success_document vs) = Some vs.
Proof.
  intro H. unfold read_values, success_values.
  rewrite parse_success_document. cbn [Json.member Json.assoc String.eqb].
  change (Json.assoc "ok" [("ok", JBool true); ("values", JArray (map item vs))])
    with (Some (JBool true)).
  change (Json.assoc "values"
            [("ok", JBool true); ("values", JArray (map item vs))])
    with (Some (JArray (map item vs))).
  cbv beta match. now apply decode_values_items.
Qed.

End Documents.

(** C8: for every signed 64-bit integer, encoding it as a decimal
    string and re-parsing that string recovers exactly the original
    value, on the whole range from -2^63 to 2^63-1; and the same holds
    through the call result document: the values read back from the
    success document that carries the encoded integers are the
    original ones. *)
Theorem i64_decimal_round_trip (v : Z) (vs : list Z) :
  in_int64 v ->
  Forall in_int64 vs ->
  Marshal.decode_i64 (Marshal.encode_i64 v) = Some v
  /\ Marshal.read_values (Marshal.success_document (v :: vs))
     = Some (v :: vs).
Proof.
  intros Hv Hvs. split.
  - now apply decode_encode_i64.
  - apply read_values_success_document. now constructor.
Qed.

Lemma i64_decimal_round_trip_witness :
  Marshal.decode_i64 (Marshal.encode_i64 Marshal.INT64_MIN)
  = Some Marshal.INT64_MIN
  /\ Marshal.read_values
       (Marshal.success_document
          [Marshal.INT64_MIN; Marshal.INT64_MAX; 0; -1])
     = Some [Marshal.INT64_MIN; Marshal.INT64_MAX; 0; -1].
Proof.
  apply (i64_decimal_round_trip
           Marshal.INT64_MIN [Marshal.INT64_MAX; 0; -1]).
  - unfold in_int64, Marshal.INT64_MIN, Marshal.INT64_MAX. lia.
  - repeat constructor;
      unfold in_int64, Marshal.INT64_MIN, Marshal.INT64_MAX; lia.
Defined.

(* ================================================================== *)
(** ** Further properties of the entry points *)

(** *** Loading from a file *)

(** X1: for every file object, [loadModule] returns the null handle 0;
    it writes its one information record, reports no error, and never
    touches the file or anything else. *)
Theorem loadModule_returns_zero thiz wasm_file w :
  let m := Java_com_builder_runtime_wasm_WasmRuntime_loadModule
             thiz wasm_file in
  result m w = 0
  /\ new_records w (after m w)
     = [mkLog ANDROID_LOG_INFO "WasmtimeJNI"
              "loadModule called (stub implementation)"]
  /\ jvm_state (after m w) = jvm_state w
  /\ silent w (after m w) = true.
Proof.
  run_bridge. repeat split.
  apply (silent_logged w (OpLoadModule wasm_file)).
Qed.

(** *** What whole sessions keep *)

Lemma op_records_bridge op : Forall bridge_record (op_records op).
Proof. destruct op; repeat constructor. Qed.

Lemma flat_map_records_bridge ops :
  Forall bridge_record (flat_map op_records ops).
Proof.
  induction ops as [|op ops IH]; [constructor|].
  cbn [flat_map]. apply Forall_app. split; [apply op_records_bridge | exact IH].
Qed.

Lemma flat_map_records_no_error ops :
  existsb is_error_record (flat_map op_records ops) = false.
Proof.
  induction ops as [|op ops IH]; [reflexivity|].
  cbn [flat_map]. rewrite existsb_app, IH, orb_false_r.
  destruct op; reflexivity.
Qed.

(** X2: for string arguments that are not null and JNI string
    functions that succeed (the assumptions of this model), a session
    of any operations, in any order, leaves exactly the UTF buffers
    outstanding that were outstanding before it: every buffer obtained
    with [GetStringUTFChars] is released again, also when a function
    name and its arguments are the same string and when buffers with
    the same contents were already out.  All the records it writes are
    information records under the tag WasmtimeJNI: the bridge never
    uses [LOGE]. *)
Theorem session_releases_buffers thiz ops w :
  let w' := after (run_ops thiz ops) w in
  utf_chars w' = utf_chars w
  /\ Forall bridge_record (new_records w w')
  /\ existsb is_error_record (new_records w w') = false.
Proof.
  run_bridge. repeat split.
  - apply flat_map_records_bridge.
  - apply flat_map_records_no_error.
Qed.

(** X3: in every session each operation gets its answer, and every
    answer is a stub value: each handle returned by [loadModuleFromBytes],
    [loadModule] or [instantiate] is 0, each document returned by [call]
    is the placeholder.  The bridge never hands out a nonzero handle. *)
Theorem session_returns_stub_values thiz ops w :
  List.length (result (run_ops thiz ops) w) = List.length ops
  /\ Forall stub_value (result (run_ops thiz ops) w).
Proof.
  run_bridge. split; [apply length_map|].
  induction ops as [|op ops IH]; [constructor|].
  cbn [map]. constructor; [destruct op; reflexivity | exact IH].
Qed.

Lemma op_records_weight op : List.length (op_records op) = op_weight op.
Proof. destruct op; reflexivity. Qed.

Lemma flat_map_records_length ops :
  List.length (flat_map op_records ops) = list_sum (map op_weight ops).
Proof.
  induction ops as [|op ops IH]; [reflexivity|].
  change (list_sum (map op_weight (op :: ops)))
    with (op_weight op + list_sum (map op_weight ops))%nat.
  cbn [flat_map]. now rewrite length_app, op_records_weight, IH.
Qed.

Lemma weights_bounds ops :
  (List.length ops <= list_sum (map op_weight ops) <= 2 * List.length ops)%nat.
Proof.
  induction ops as [|op ops IH]; [cbn; lia|].
  change (list_sum (map op_weight (op :: ops)))
    with (op_weight op + list_sum (map op_weight ops))%nat.
  cbn [List.length]. destruct op; cbn [op_weight]; lia.
Qed.

(** X4: the log only grows.  A session keeps every earlier record in
    place and adds one record for each load or destroy and two for each
    instantiate or call, so between n and 2n records for n
    operations. *)
Theorem session_log_append_only thiz ops w :
  let w' := after (run_ops thiz ops) w in
  firstn (List.length (logcat w)) (logcat w') = logcat w
  /\ List.length (new_records w w') = list_sum (map op_weight ops)
  /\ (List.length ops <= List.length (new_records w w')
      <= 2 * List.length ops)%nat.
Proof.
  run_bridge. rewrite flat_map_records_length.
  split; [|split; [reflexivity | apply weights_bounds]].
  unfold logged. cbn [logcat].
  rewrite firstn_app, Nat.sub_diag, firstn_all. cbn [firstn].
  apply app_nil_r.
Qed.

(** *** Handles are never looked at *)

Lemma with_handle_result h op : op_result (with_handle h op) = op_result op.
Proof. destruct op; reflexivity. Qed.

Lemma with_handle_records h op :
  op_records (with_handle h op) = op_records op.
Proof. destruct op; reflexivity. Qed.

(** X5: no entry point looks at a handle or at its receiver.  Replacing
    every handle of a session, and the receiver, by any other value
    changes neither the values returned nor the world left behind, log
    included: the log never shows a handle. *)
Theorem session_ignores_handles thiz thiz' h ops w :
  run_ops thiz' (map (with_handle h) ops) w = run_ops thiz ops w.
Proof.
  rewrite !run_ops_effect. f_equal.
  - rewrite map_map. apply map_ext. intro op. apply with_handle_result.
  - f_equal. rewrite flat_map_concat_map, map_map, <- flat_map_concat_map.
    apply flat_map_ext. intro op. apply with_handle_records.
Qed.

(** X6: the bridge does not notice use after destroy or double destroy.
    After an instance handle was destroyed, even twice, and its module
    too, [call] and [instantiate] on the same handles answer as ever
    and the whole session reports no error. *)
Theorem use_after_destroy_accepted thiz i m f a config w :
  let s := run_ops thiz
             [OpDestroyInstance i; OpDestroyInstance i; OpDestroyModule m;
              OpCall i f a; OpInstantiate m config] in
  result s w
  = [RetVoid; RetVoid; RetVoid; RetString stub_document; RetHandle 0]
  /\ silent w (after s w) = true
  /\ jvm_state (after s w) = jvm_state w.
Proof.
  run_bridge. repeat split.
  unfold silent. rewrite thrown_logged, new_records_logged.
  now rewrite flat_map_records_no_error.
Qed.

(** *** What the log shows *)

Lemma append_empty_r (s : string) : s ++ "" = s.
Proof. induction s as [|c s IH]; cbn; [reflexivity | now rewrite IH]. Qed.

Lemma truncate_short n : forall s,
  (String.length s <= n)%nat -> truncate n s = s.
Proof.
  induction n as [|n IH]; intros [|c s] H; cbn in *;
    [reflexivity | lia | reflexivity |].
  rewrite IH; [reflexivity | lia].
Qed.

Lemma string_length_append (a b : string) :
  String.length (a ++ b) = (String.length a + String.length b)%nat.
Proof. induction a as [|x a IH]; cbn; [reflexivity | now rewrite IH]. Qed.

Lemma info_short (fmt : string) (args : list string) :
  (String.length (format fmt args) <= 1023)%nat ->
  info fmt args = mkLog ANDROID_LOG_INFO "WasmtimeJNI" (format fmt args).
Proof.
  intro H. unfold info, LOG_TAG. f_equal. now apply truncate_short.
Qed.

(** X7: [instantiate] writes the WASI configuration into the log as it
    is.  For a configuration document of at most 1010 characters the
    second record of the call is the text [WASI config: ] followed by
    the whole document, so whatever the configuration carries
    (arguments, environment values, host paths) can be read from the
    log. *)
Theorem instantiate_logs_config thiz module_handle config w :
  (String.length config <= 1010)%nat ->
  new_records w
    (after (Java_com_builder_runtime_wasm_WasmRuntime_instantiate
              thiz module_handle config) w)
  = [mkLog ANDROID_LOG_INFO "WasmtimeJNI"
           "instantiate called (stub implementation)";
     mkLog ANDROID_LOG_INFO "WasmtimeJNI" ("WASI config: " ++ config)].
Proof.
  intro H. run_bridge. cbn [op_records]. f_equal. f_equal.
  rewrite info_short.
  - change (format "WASI config: %s" [config])
      with ("WASI config: " ++ (config ++ "")).
    now rewrite append_empty_r.
  - change (format "WASI config: %s" [config])
      with ("WASI config: " ++ (config ++ "")).
    rewrite append_empty_r, string_length_append. cbn [String.length]. lia.
Qed.

Lemma instantiate_logs_config_witness :
  new_records empty_world
    (after (Java_com_builder_runtime_wasm_WasmRuntime_instantiate
              7 1 (c_str "{'env':{'TOKEN':'s3cret'}}")) empty_world)
  = [mkLog ANDROID_LOG_INFO "WasmtimeJNI"
           "instantiate called (stub implementation)";
     mkLog ANDROID_LOG_INFO "WasmtimeJNI"
           ("WASI config: " ++ c_str "{'env':{'TOKEN':'s3cret'}}")].
Proof.
  apply (instantiate_logs_config
           7 1 (c_str "{'env':{'TOKEN':'s3cret'}}") empty_world).
  vm_compute. lia.
Defined.

(** X8: [call] writes the function name and the arguments document
    into the log as they are.  When the two together have at most 993
    characters, the second record of the call is [Calling function: ],
    the name, [ with args: ] and the document.  Both are passed to the
    format as data: a name or a document that contains conversion
    specifications is logged character by character, not interpreted. *)
Theorem call_logs_name_and_args thiz instance_handle function_name args_json w :
  (String.length function_name + String.length args_json <= 993)%nat ->
  new_records w
    (after (Java_com_builder_runtime_wasm_WasmRuntime_call
              thiz instance_handle function_name args_json) w)
  = [mkLog ANDROID_LOG_INFO "WasmtimeJNI" "call called (stub implementation)";
     mkLog ANDROID_LOG_INFO "WasmtimeJNI"
           ("Calling function: " ++ function_name
            ++ " with args: " ++ args_json)].
Proof.
  intro H. run_bridge. cbn [op_records]. f_equal. f_equal.
  change (info "Calling function: %s with args: %s"
            [function_name; args_json])
    with (info "Calling function: %s with args: %s"
            (function_name :: args_json :: @nil string)).
  assert (Hf : format "Calling function: %s with args: %s"
                 (function_name :: args_json :: @nil string)
               = "Calling function: " ++ function_name
                 ++ " with args: " ++ args_json).
  { change (format "Calling function: %s with args: %s"
              (function_name :: args_json :: @nil string))
      with ("Calling function: "
            ++ (function_name ++ (" with args: " ++ (args_json ++ "")))).
    now rewrite append_empty_r. }
  rewrite info_short.
  - now rewrite Hf.
  - rewrite Hf, !string_length_append. cbn [String.length]. lia.
Qed.

Lemma call_logs_name_and_args_witness :
  new_records empty_world
    (after (Java_com_builder_runtime_wasm_WasmRuntime_call
              7 1 "%s%n" "[%d]") empty_world)
  = [mkLog ANDROID_LOG_INFO "WasmtimeJNI" "call called (stub implementation)";
     mkLog ANDROID_LOG_INFO "WasmtimeJNI"
           ("Calling function: " ++ "%s%n" ++ " with args: " ++ "[%d]")].
Proof.
  apply (call_logs_name_and_args 7 1 "%s%n" "[%d]" empty_world).
  vm_compute. lia.
Defined.
